(** * Finite-difference Schroedinger solver: a model of [PotentialsNew.py]
      and [HMatNew.py], and the properties of its specification.

    The Python program discretises the time-independent Schroedinger
    equation on a grid and hands a symmetric tridiagonal matrix to
    [scipy.linalg.eigh_tridiagonal].  The model below follows the two source
    files statement by statement:

    - numpy [float64] values are IEEE-754 binary64 numbers, taken from the
      Standard Library's executable specification [SpecFloat] at precision 53
      and maximal exponent 1024; a one-dimensional [ndarray] is a list of them;
    - Python exceptions are the [Raise] results of an error monad; a method
      that mutates [self] is a function from the instance to an outcome and
      the instance as the exception (or the return) leaves it;
    - the two external numerical routines the program calls, the C library's
      [pow] and scipy's [eigh_tridiagonal], are interfaces ([Libm], [Lapack]);
      what is proved holds for every implementation of them, and a small
      reference implementation is used to run the model on concrete inputs. *)

From Stdlib Require Import ZArith List Bool Lia Sorted.
From Stdlib Require Import Floats.SpecFloat.
Import ListNotations.

Set Implicit Arguments.

(* ===================================================================== *)
(** * Python outcomes *)
(* ===================================================================== *)

(** The built-in exception classes that the two files can raise. *)
Inductive exception : Set :=
| IndexError
| TypeError
| ValueError
| AssertionError
| ZeroDivisionError
| OverflowError
| AttributeError.

(** The outcome of evaluating a Python expression. *)
Inductive result (A : Type) : Type :=
| Ok (a : A)
| Raise (e : exception).

Arguments Ok {A} a.
Arguments Raise {A} e.

Definition bind {A B : Type} (c : result A) (k : A -> result B) : result B :=
  match c with
  | Ok a => k a
  | Raise err => Raise err
  end.

Declare Scope py_scope.
Delimit Scope py_scope with py.
Notation "x <- c ;; k" := (bind c (fun x => k))
  (at level 61, c at next level, right associativity) : py_scope.
Open Scope py_scope.

Definition is_ok {A : Type} (c : result A) : bool :=
  match c with Ok _ => true | Raise _ => false end.

(* ===================================================================== *)
(** * binary64 arithmetic *)
(* ===================================================================== *)

Definition float : Set := spec_float.

Module F64.

Definition prec : Z := 53.
Definition emax : Z := 1024.

Definition add : float -> float -> float := SFadd prec emax.
Definition sub : float -> float -> float := SFsub prec emax.
Definition mul : float -> float -> float := SFmul prec emax.
Definition div : float -> float -> float := SFdiv prec emax.
Definition sqrt : float -> float := SFsqrt prec emax.
Definition neg : float -> float := SFopp.
Definition abs : float -> float := SFabs.

(** Comparisons; each is [false] as soon as an operand is a NaN. *)
Definition eqb : float -> float -> bool := SFeqb.
Definition ltb : float -> float -> bool := SFltb.
Definition leb : float -> float -> bool := SFleb.

Definition is_nan (f : float) : bool :=
  match f with S754_nan => true | _ => false end.
Definition is_inf (f : float) : bool :=
  match f with S754_infinity _ => true | _ => false end.
Definition is_finite (f : float) : bool :=
  match f with S754_zero _ | S754_finite _ _ _ => true | _ => false end.

(** An integer rounded to the nearest binary64, ties to even. *)
Definition of_Z (z : Z) : float := binary_normalize prec emax z 0 false.

(** The quotient [n / d] of two positive integers, rounded once. *)
Definition of_ratio (n d : positive) : float :=
  let '(mz, ez, lz) := SFdiv_core_binary prec emax (Zpos n) 0 (Zpos d) 0 in
  binary_round_aux prec emax false mz ez lz.

(** The decimal literal [m]e[k] of the source text, [m > 0], read as Python
    reads it: the nearest binary64 to [m * 10^k]. *)
Definition decimal (m : positive) (k : Z) : float :=
  match k with
  | Zneg p => of_ratio m (Pos.pow 10 p)
  | _ => of_Z (Zpos m * 10 ^ k)
  end.

Definition zero : float := S754_zero false.
Definition one : float := of_Z 1.
Definition two : float := of_Z 2.
Definition four : float := of_Z 4.
Definition eight : float := of_Z 8.
Definition half : float := decimal 5 (-1).

End F64.

(* ===================================================================== *)
(** * numpy arrays and Python objects *)
(* ===================================================================== *)

(** A one-dimensional [float64] array. *)
Definition ndarray : Set := list float.

(** The Python values that flow through the two files: [None], a scalar
    and a one-dimensional array. *)
Inductive pyobj : Set :=
| PyNone
| PyFloat (f : float)
| NdArray (a : ndarray).

(** A Python number: the angular-momentum index is an [int] (the default
    [l=0]) or a [float]. *)
Inductive number : Set :=
| Int (z : Z)
| Float (f : float).

Module Np.

(** [a[i]] at an index [i >= 0]. *)
Definition getitem (a : ndarray) (i : nat) : result float :=
  match nth_error a i with
  | Some v => Ok v
  | None => Raise IndexError
  end.

(** [a[1:]]. *)
Definition drop_first (a : ndarray) : ndarray := tl a.

(** [np.full(n, v)]. *)
Definition full (n : nat) (v : float) : ndarray := repeat v n.

(** [np.zeros_like(a)]. *)
Definition zeros_like (a : ndarray) : ndarray := map (fun _ => F64.zero) a.

(** [np.where(c, t, e)] with scalar branches, [c] given pointwise. *)
Definition where_ (c : float -> bool) (a : ndarray) (t e : float) : ndarray :=
  map (fun v => if c v then t else e) a.

(** [a ** 2], which numpy evaluates as [np.square(a)]. *)
Definition square (a : ndarray) : ndarray := map (fun v => F64.mul v v) a.

(** A binary ufunc on two one-dimensional arrays: equal shapes go
    elementwise, a shape [(1,)] is stretched, anything else is numpy's
    "operands could not be broadcast together". *)
Fixpoint zip_with (op : float -> float -> float) (a b : ndarray) : ndarray :=
  match a, b with
  | u :: a', v :: b' => op u v :: zip_with op a' b'
  | _, _ => []
  end.

Definition broadcast (op : float -> float -> float) (a b : ndarray)
  : result ndarray :=
  if Nat.eqb (length a) (length b) then Ok (zip_with op a b)
  else match a, b with
       | [u], _ => Ok (map (op u) b)
       | _, [v] => Ok (map (fun u => op u v) a)
       | _, _ => Raise ValueError
       end.

(** [np.isclose(a, b)] on scalars with the default tolerances:
    [(|a - b| <= atol + rtol * |b|) & isfinite(b) | (a == b)]. *)
Definition rtol : float := F64.decimal 1 (-5).
Definition atol : float := F64.decimal 1 (-8).

Definition isclose (a b : float) : bool :=
  F64.leb (F64.abs (F64.sub a b)) (F64.add atol (F64.mul rtol (F64.abs b)))
    && F64.is_finite b
  || F64.eqb a b.

End Np.

(** Conversion of a Python number to a C double, as numpy does before a
    [float64] operation; an [int] out of range cannot be converted. *)
Definition to_double (n : number) : result float :=
  match n with
  | Float f => Ok f
  | Int z =>
      let f := F64.of_Z z in
      if F64.is_inf f then Raise OverflowError else Ok f
  end.

(** [n >= 0], [n + 1] and [n * m] on Python numbers ([int] arithmetic is
    exact, a mixed operation converts the [int]). *)
Definition number_ge0 (n : number) : bool :=
  match n with
  | Int z => (0 <=? z)%Z
  | Float f => F64.leb F64.zero f
  end.

Definition number_lt0 (n : number) : bool :=
  match n with
  | Int z => (z <? 0)%Z
  | Float f => F64.ltb f F64.zero
  end.

Definition number_succ (n : number) : number :=
  match n with
  | Int z => Int (z + 1)
  | Float f => Float (F64.add f F64.one)
  end.

Definition number_mul (n m : number) : result number :=
  match n, m with
  | Int a, Int b => Ok (Int (a * b))
  | _, _ =>
      a <- to_double n ;;
      b <- to_double m ;;
      Ok (Float (F64.mul a b))
  end.

(** Division of two Python [float]s. *)
Definition float_div (a b : float) : result float :=
  if F64.eqb b F64.zero then Raise ZeroDivisionError else Ok (F64.div a b).

(* ===================================================================== *)
(** * The external numerical routines *)
(* ===================================================================== *)

(** The C library's [pow], which Python's [float.__pow__], numpy's scalar
    power and [np.power] all end in. *)
Class Libm : Type := { c_pow : float -> float -> float }.

(** [scipy.linalg.eigh_tridiagonal(d, e)] on two one-dimensional arrays:
    the eigenvalues and the matrix of eigenvectors, or an exception. *)
Class Lapack : Type :=
  { eigh_tridiagonal : ndarray -> ndarray -> result (ndarray * list ndarray) }.

(** What scipy documents of it: [e] has one element less than [d], there are
    as many eigenvalues as [d] has elements, and they come in ascending
    order. *)
Definition f64_le (a b : float) : Prop := F64.leb a b = true.

Class LapackSpec (L : Lapack) : Prop :=
  { eigh_shape : forall d off w v,
      eigh_tridiagonal d off = Ok (w, v) ->
      length d = S (length off) /\ length w = length d;
    eigh_ascending : forall d off w v,
      eigh_tridiagonal d off = Ok (w, v) -> Sorted f64_le w }.

(** [x ** 2] on a Python [float] (CPython's [float_pow] at the exponent 2):
    NaN, infinities, zero and one are answered without calling [pow], and a
    result of [pow] that overflowed raises. *)
Definition float_pow2 `{Libm} (x : float) : result float :=
  if F64.is_nan x then Ok x
  else if F64.is_inf x then Ok (F64.abs x)
  else if F64.eqb x F64.zero then Ok F64.zero
  else
    let iv := F64.abs x in
    if F64.eqb iv F64.one then Ok F64.one
    else
      let ix := c_pow iv F64.two in
      if F64.is_inf ix then Raise OverflowError else Ok ix.

(* ===================================================================== *)
(** * PotentialsNew.py *)
(* ===================================================================== *)

(** The class hierarchy: the base class [Potential] and its eight
    subclasses, each with the arguments of its [__init__], which are Python
    [float]s.  The base class takes [mass], [width], [center] and [xmin], all
    [None] by default. *)
Inductive potential_object : Set :=
| Potential (mass width center xmin : option float)
| PotentialBarrier (mass width xmin v0 : float)
| HarmonicOscillator (mass width omega center : float)
| FreeParticle (mass momentum : float)
| InfinitePotentialWell (mass width xmin : float)
| FinitePotentialWell (mass width xmin v0 : float)
| CoulombPotential
| DoublePotentialWell (mass width xmin1 xmin2 v0 : float)
| DoubleSmoothPotential (mass : float).

(** The physical constants of the base class. *)
Definition h : float := F64.decimal 662607015 (-42).          (* 6.62607015e-34 *)
Definition pi : float := F64.decimal 3141592653589793 (-15).  (* np.pi *)
Definition hbar : float := F64.div h (F64.mul F64.two pi).
Definition e : float := F64.decimal 1602176634 (-28).         (* 1.602176634e-19 *)
Definition eps0 : float := F64.decimal 88541878128 (-22).     (* 8.8541878128e-12 *)

Section Potentials.

Context `{Libm}.

(** [x >= lo] and [x <= hi] at one grid point. *)
Definition inside (lo hi v : float) : bool := F64.leb lo v && F64.leb v hi.
Definition outside (lo hi v : float) : bool := F64.ltb v lo || F64.ltb hi v.

(** [GetPotential(self, x)], by the class of [self].  The body of the base
    class's method is its docstring alone: it returns [None]. *)
Definition GetPotential (self : potential_object) (x : ndarray) : result pyobj :=
  match self with
  | Potential _ _ _ _ => Ok PyNone
  | PotentialBarrier _ width xmin v0 =>
      let xmax := F64.add xmin width in
      Ok (NdArray (Np.where_ (inside xmin xmax) x v0 F64.zero))
  | HarmonicOscillator mass _ omega center =>
      w2 <- float_pow2 omega ;;
      let k := F64.mul (F64.mul F64.half mass) w2 in
      let d2 := Np.square (map (fun v => F64.sub v center) x) in
      Ok (NdArray (map (F64.mul k) d2))
  | FreeParticle _ _ => Ok (NdArray (Np.zeros_like x))
  | InfinitePotentialWell _ width xmin =>
      let xmax := F64.add xmin width in
      Ok (NdArray (Np.where_ (outside xmin xmax) x (F64.decimal 1 5) F64.zero))
  | FinitePotentialWell _ width xmin v0 =>
      let xmax := F64.add xmin width in
      Ok (NdArray (Np.where_ (outside xmin xmax) x v0 F64.zero))
  | CoulombPotential =>
      Ok (NdArray (map (F64.div (F64.neg F64.one)) x))
  | DoublePotentialWell _ width xmin1 xmin2 v0 =>
      let xmax1 := F64.add xmin1 width in
      let xmax2 := F64.add xmin2 width in
      Ok (NdArray (Np.where_
                     (fun v => inside xmin1 xmax1 v || inside xmin2 xmax2 v)
                     x F64.zero v0))
  | DoubleSmoothPotential _ =>
      let E_0 := F64.decimal 51 (-1) in
      let C := F64.decimal 85 (-3) in
      let D := F64.of_Z 15 in
      Ok (NdArray (map (fun v =>
             F64.add
               (F64.mul E_0
                  (F64.sub (F64.mul C (c_pow v F64.four)) (F64.mul v v)))
               D) x))
  end.

(** [h**2 / (c * mass * width'**2)], the box energy shared by the wells and
    the barrier; [width'] is [width] or [2.0 * width]. *)
Definition box_energy (c mass width' : float) : result pyobj :=
  h2 <- float_pow2 h ;;
  w2 <- float_pow2 width' ;;
  q <- float_div h2 (F64.mul (F64.mul c mass) w2) ;;
  Ok (PyFloat q).

(** [GroundStateEnergy(self)]; [DoubleSmoothPotential] does not define it
    and inherits the base class's, which returns [None]. *)
Definition GroundStateEnergy (self : potential_object) : result pyobj :=
  match self with
  | Potential _ _ _ _ => Ok PyNone
  | PotentialBarrier mass width _ _ => box_energy F64.eight mass width
  | HarmonicOscillator _ _ omega _ =>
      Ok (PyFloat (F64.mul (F64.mul F64.half hbar) omega))
  | FreeParticle mass momentum =>
      p2 <- float_pow2 momentum ;;
      q <- float_div p2 (F64.mul F64.two mass) ;;
      Ok (PyFloat q)
  | InfinitePotentialWell mass width _ => box_energy F64.eight mass width
  | FinitePotentialWell mass width _ _ => box_energy F64.eight mass width
  | CoulombPotential =>
      Ok (PyFloat (F64.mul (F64.neg (F64.decimal 136 (-1))) e))
  | DoublePotentialWell mass width _ _ _ =>
      box_energy F64.eight mass (F64.mul F64.two width)
  | DoubleSmoothPotential _ => Ok PyNone
  end.

End Potentials.

(* ===================================================================== *)
(** * Methods that mutate [self] *)
(* ===================================================================== *)

(** A method body runs on the instance and ends in a value or an exception;
    either way the instance keeps the attributes assigned so far. *)
Definition method (S A : Type) : Type := S -> result A * S.

Definition mbind {S A B : Type} (c : method S A) (k : A -> method S B)
  : method S B :=
  fun s =>
    match c s with
    | (Ok a, s') => k a s'
    | (Raise err, s') => (Raise err, s')
    end.

Definition mret {S A : Type} (a : A) : method S A := fun s => (Ok a, s).

(** Read an attribute of [self]. *)
Definition read {S A : Type} (f : S -> A) : method S A := fun s => (Ok (f s), s).

(** Assign to attributes of [self]. *)
Definition assign {S : Type} (f : S -> S) : method S unit := fun s => (Ok tt, f s).

(** Evaluate an expression that does not touch [self]. *)
Definition eval {S A : Type} (c : result A) : method S A := fun s => (c, s).

(** Evaluate an expression over the attributes of [self]. *)
Definition call {S A : Type} (f : S -> result A) : method S A :=
  fun s => (f s, s).

(** An attribute that exists only once it has been assigned, and its read. *)
Inductive attribute (A : Type) : Type :=
| Unset
| Set_to (a : A).

Arguments Unset {A}.
Arguments Set_to {A} a.

Definition getattr {S A : Type} (f : S -> attribute A) : method S A :=
  fun s =>
    match f s with
    | Set_to a => (Ok a, s)
    | Unset => (Raise AttributeError, s)
    end.

Declare Scope method_scope.
Delimit Scope method_scope with method.
Notation "x <- c ;; k" := (mbind c (fun x => k))
  (at level 61, c at next level, right associativity) : method_scope.
Notation "c ;;; k" := (mbind c (fun _ => k))
  (at level 61, right associativity) : method_scope.

(** [s + o] for a numpy scalar [s] and a Python object [o]. *)
Definition scalar_add (s : float) (o : pyobj) : result pyobj :=
  match o with
  | PyNone => Raise TypeError
  | PyFloat f => Ok (PyFloat (F64.add s f))
  | NdArray a => Ok (NdArray (map (F64.add s) a))
  end.

(** [o + a] for a Python object [o] and an array [a]. *)
Definition add_array (o : pyobj) (a : ndarray) : result pyobj :=
  match o with
  | PyNone => Raise TypeError
  | PyFloat f => Ok (NdArray (map (F64.add f) a))
  | NdArray b => v <- Np.broadcast F64.add b a ;; Ok (NdArray v)
  end.

(** The call [eigh_tridiagonal(d, e)]: scipy refuses a [d] that is not a
    one-dimensional array before it looks at anything else. *)
Definition call_eigh `{Lapack} (d : pyobj) (off : ndarray)
  : result (ndarray * list ndarray) :=
  match d with
  | NdArray dv => eigh_tridiagonal dv off
  | _ => Raise ValueError
  end.

(** [alpha = 1 / (2 * delta**2)] on numpy scalars, which neither raise on a
    zero divisor nor on overflow. *)
Definition alpha_of `{Libm} (delta : float) : float :=
  F64.div F64.one (F64.mul F64.two (c_pow delta F64.two)).

(* ===================================================================== *)
(** * HMatNew.py: [Hamiltonian] *)
(* ===================================================================== *)

Module Hamiltonian.

(** The attributes of an instance; the three diagonals exist only after
    [solve] has assigned them. *)
Record t : Type := mk
  { potential : potential_object;
    V : pyobj;
    EMax : pyobj;
    x : ndarray;
    upperDiag : attribute ndarray;
    mainDiag : attribute pyobj;
    lowerDiag : attribute ndarray }.

Definition set_upperDiag (u : ndarray) (self : t) : t :=
  mk (potential self) (V self) (EMax self) (x self)
     (Set_to u) (mainDiag self) (lowerDiag self).

Definition set_mainDiag (m : pyobj) (self : t) : t :=
  mk (potential self) (V self) (EMax self) (x self)
     (upperDiag self) (Set_to m) (lowerDiag self).

Definition set_lowerDiag (l : ndarray) (self : t) : t :=
  mk (potential self) (V self) (EMax self) (x self)
     (upperDiag self) (mainDiag self) (Set_to l).

Section Methods.

Context `{Libm} `{Lapack}.

Definition __init__ (potential : potential_object) (x : ndarray) : result t :=
  V <- GetPotential potential x ;;
  EMax <- GroundStateEnergy potential ;;
  Ok (mk potential V EMax x Unset Unset Unset).

(** [deltaX = self.x[1] - self.x[0]]. *)
Definition deltaX (self : t) : result float :=
  x1 <- Np.getitem (x self) 1 ;;
  x0 <- Np.getitem (x self) 0 ;;
  Ok (F64.sub x1 x0).

Definition solve : method t (ndarray * list ndarray) :=
  (deltaX <- call deltaX ;;
   let alpha := alpha_of deltaX in
   n <- read (fun self => length (x self)) ;;
   assign (set_upperDiag (Np.full (n - 1) (F64.neg alpha))) ;;;
   V <- read V ;;
   m <- eval (scalar_add (F64.mul F64.two alpha) V) ;;
   assign (set_mainDiag m) ;;;
   n <- read (fun self => length (x self)) ;;
   assign (set_lowerDiag (Np.full (n - 1) (F64.neg alpha))) ;;;
   d <- getattr mainDiag ;;
   off <- getattr upperDiag ;;
   eval (call_eigh d off))%method.

End Methods.

End Hamiltonian.

(* ===================================================================== *)
(** * HMatNew.py: [RadialHamiltonian] *)
(* ===================================================================== *)

Module RadialHamiltonian.

Record t : Type := mk
  { potential : potential_object;
    l : number;
    r : ndarray;
    V : pyobj;
    upperDiag : attribute ndarray;
    mainDiag : attribute pyobj;
    lowerDiag : attribute ndarray }.

Definition set_upperDiag (u : ndarray) (self : t) : t :=
  mk (potential self) (l self) (r self) (V self)
     (Set_to u) (mainDiag self) (lowerDiag self).

Definition set_mainDiag (m : pyobj) (self : t) : t :=
  mk (potential self) (l self) (r self) (V self)
     (upperDiag self) (Set_to m) (lowerDiag self).

Definition set_lowerDiag (d : ndarray) (self : t) : t :=
  mk (potential self) (l self) (r self) (V self)
     (upperDiag self) (mainDiag self) (Set_to d).

(** The grid that [__init__] keeps in [self.r]: [r[1:]] when [r[0]] is
    close to zero, [r] otherwise. *)
Definition working_grid (r : ndarray) : result ndarray :=
  r0 <- Np.getitem r 0 ;;
  Ok (if Np.isclose r0 F64.zero then Np.drop_first r else r).

(** [l*(l+1)/(2*r**2)] on a grid [r]. *)
Definition centrifugal (l : number) (r : ndarray) : result ndarray :=
  ll <- number_mul l (number_succ l) ;;
  let den := map (F64.mul F64.two) (Np.square r) in
  c <- to_double ll ;;
  Ok (map (F64.div c) den).

Section Methods.

Context `{Libm} `{Lapack}.

Definition __init__ (potential : potential_object) (r : ndarray) (l : number)
  : result t :=
  if negb (number_ge0 l) then Raise AssertionError
  else
    self_r <- working_grid r ;;
    pot <- GetPotential potential r ;;
    cen <- centrifugal l self_r ;;
    V <- add_array pot cen ;;
    Ok (mk potential l self_r V Unset Unset Unset).

(** [deltaR = self.r[1] - self.r[0]]. *)
Definition deltaR (self : t) : result float :=
  r1 <- Np.getitem (r self) 1 ;;
  r0 <- Np.getitem (r self) 0 ;;
  Ok (F64.sub r1 r0).

Definition solve : method t (ndarray * list ndarray) :=
  (deltaR <- call deltaR ;;
   let alpha := alpha_of deltaR in
   N <- read (fun self => length (r self)) ;;
   n <- read (fun self => length (r self)) ;;
   assign (set_upperDiag (Np.full (n - 1) (F64.neg alpha))) ;;;
   V <- read V ;;
   m <- eval (scalar_add (F64.mul F64.two alpha) V) ;;
   assign (set_mainDiag m) ;;;
   n <- read (fun self => length (r self)) ;;
   assign (set_lowerDiag (Np.full (n - 1) (F64.neg alpha))) ;;;
   d <- getattr mainDiag ;;
   off <- getattr upperDiag ;;
   eval (call_eigh d off))%method.

(** What the specification says [__init__] stores as the effective
    potential: the potential evaluated on the working grid plus the
    centrifugal term on the same grid. *)
Definition effective_potential_spec
    (potential : potential_object) (r : ndarray) (l : number)
  : result pyobj :=
  self_r <- working_grid r ;;
  pot <- GetPotential potential self_r ;;
  cen <- centrifugal l self_r ;;
  add_array pot cen.

End Methods.

End RadialHamiltonian.

(* ===================================================================== *)
(** * Reference implementations of the external routines *)
(* ===================================================================== *)

(** [pow] at the two exponents the program uses, 2 and 4, by
    multiplication; a NaN elsewhere. *)
Definition pow_by_squaring (x y : float) : float :=
  if F64.eqb y F64.two then F64.mul x x
  else if F64.eqb y F64.four then F64.mul (F64.mul x x) (F64.mul x x)
  else S754_nan.

Definition libm_ref : Libm := {| c_pow := pow_by_squaring |}.

(** A tridiagonal eigensolver for matrices of order one and two, in closed
    form: the matrix [[a, b], [b, c]] has the eigenvalues
    [(a + c)/2 -+ sqrt(((a - c)/2)^2 + b^2)] and the eigenvectors
    [(b, w - a)], normalised.  Like scipy it refuses entries that are not
    finite and shapes that do not fit. *)
Definition unit_vector (u v : float) : float * float :=
  let n := F64.sqrt (F64.add (F64.mul u u) (F64.mul v v)) in
  (F64.div u n, F64.div v n).

Definition eigh_order2 (d off : ndarray) : result (ndarray * list ndarray) :=
  if negb (forallb F64.is_finite d && forallb F64.is_finite off)
  then Raise ValueError
  else
    match d, off with
    | [a], [] => Ok ([a], [[F64.one]])
    | [a; c], [b] =>
        let m := F64.mul F64.half (F64.add a c) in
        let k := F64.mul F64.half (F64.sub a c) in
        let q := F64.sqrt (F64.add (F64.mul k k) (F64.mul b b)) in
        let w1 := F64.sub m q in
        let w2 := F64.add m q in
        let '(p1, q1) := unit_vector b (F64.sub w1 a) in
        let '(p2, q2) := unit_vector b (F64.sub w2 a) in
        if F64.leb w1 w2
        then Ok ([w1; w2], [[p1; p2]; [q1; q2]])
        else Raise ValueError
    | _, _ => Raise ValueError
    end.

Definition lapack_order2 : Lapack := {| eigh_tridiagonal := eigh_order2 |}.

(** Grids with integer points, two potentials and two instances for running
    the model. *)
Definition grid_of (zs : list Z) : ndarray := map F64.of_Z zs.

Definition free_particle : potential_object := FreeParticle F64.one F64.one.

Definition base_potential : potential_object := Potential None None None None.

Definition free_on_unit_interval : Hamiltonian.t :=
  Hamiltonian.mk free_particle (NdArray (grid_of [0; 0]%Z)) (PyFloat F64.half)
    (grid_of [0; 1]%Z) Unset Unset Unset.

Definition free_on_radial_interval : RadialHamiltonian.t :=
  RadialHamiltonian.mk free_particle (Int 0) (grid_of [1; 2]%Z)
    (NdArray (grid_of [0; 0]%Z)) Unset Unset Unset.

(* ===================================================================== *)
(** * Runs of the model *)
(* ===================================================================== *)

Ltac run := cbv zeta; repeat split; vm_compute; reflexivity.

(** A barrier of height 15 on [0, 1], seen from the grid [-1, 0, 1, 2]. *)
Example barrier_run `{Libm} :
  GetPotential (PotentialBarrier F64.one F64.one F64.zero (F64.of_Z 15))
    (grid_of [-1; 0; 1; 2]%Z)
  = Ok (NdArray (grid_of [0; 15; 15; 0]%Z)).
Proof. run. Qed.

(** The wall of the infinite well is the finite value 1e5. *)
Example infinite_well_run `{Libm} :
  GetPotential (InfinitePotentialWell F64.one F64.one F64.zero)
    (grid_of [-1; 0; 1; 2]%Z)
  = Ok (NdArray (grid_of [100000; 0; 0; 100000]%Z)).
Proof. run. Qed.

(** Two wells [0, 1] and [3, 4] in a plateau of height 7. *)
Example double_well_run `{Libm} :
  GetPotential
    (DoublePotentialWell F64.one F64.one F64.zero (F64.of_Z 3) (F64.of_Z 7))
    (grid_of [0; 1; 2; 3; 4; 5]%Z)
  = Ok (NdArray (grid_of [0; 0; 7; 0; 0; 7]%Z)).
Proof. run. Qed.

(** [0.5 * 1 * 2**2 * (x - 1)**2] at [x = 0, 1, 3]. *)
Example harmonic_run :
  @GetPotential libm_ref
    (HarmonicOscillator F64.one F64.one F64.two F64.one) (grid_of [0; 1; 3]%Z)
  = Ok (NdArray (grid_of [2; 0; 8]%Z)).
Proof. run. Qed.

(** [5.1 * (0.085 * 0**4 - 0**2) + 15] is 15. *)
Example double_smooth_run :
  @GetPotential libm_ref (DoubleSmoothPotential F64.one) (grid_of [0]%Z)
  = Ok (NdArray (grid_of [15]%Z)).
Proof. run. Qed.

(** [p**2 / (2.0 * m)] at [p = m = 1], and at [m = 0]. *)
Example free_particle_energy `{Libm} :
  GroundStateEnergy (FreeParticle F64.one F64.one) = Ok (PyFloat F64.half) /\
  GroundStateEnergy (FreeParticle F64.zero F64.one) = Raise ZeroDivisionError.
Proof. run. Qed.

(** [l*(l+1)/(2*r**2)] at [l = 1] on the grid [1, 2], and at [r = 0]. *)
Example centrifugal_run :
  RadialHamiltonian.centrifugal (Int 1) (grid_of [1; 2]%Z)
  = Ok [F64.one; F64.decimal 25 (-2)] /\
  RadialHamiltonian.centrifugal (Int 1) (grid_of [0]%Z)
  = Ok [S754_infinity false].
Proof. run. Qed.

(** Shapes [(3,)] and [(2,)] do not broadcast; [(2,)] and [(1,)] do. *)
Example broadcast_run :
  Np.broadcast F64.add (grid_of [1; 2; 3]%Z) (grid_of [1; 2]%Z)
  = Raise ValueError /\
  Np.broadcast F64.add (grid_of [1; 2]%Z) (grid_of [1]%Z)
  = Ok (grid_of [2; 3]%Z).
Proof. run. Qed.

(** [np.isclose(., 0.0)] accepts 1e-9 and refuses 1e-7 and a NaN. *)
Example isclose_run :
  Np.isclose (F64.decimal 1 (-9)) F64.zero = true /\
  Np.isclose (F64.decimal 1 (-7)) F64.zero = false /\
  Np.isclose S754_nan F64.zero = false.
Proof. run. Qed.

(** The matrix [[1, -1/2], [-1/2, 1]] of the free particle on the grid
    [0, 1] has the eigenvalues 1/2 and 3/2. *)
Example free_particle_spectrum :
  exists v self',
    @Hamiltonian.solve libm_ref lapack_order2 free_on_unit_interval
    = (Ok ([F64.half; F64.decimal 15 (-1)], v), self').
Proof. do 2 eexists. symmetry. vm_compute. reflexivity. Qed.

(* ===================================================================== *)
(** * What [solve] computes *)
(* ===================================================================== *)

Lemma getitem_length (a : ndarray) (i : nat) :
  i < length a -> Np.getitem a i = Ok (nth i a F64.zero).
Proof.
  intros Hi. unfold Np.getitem.
  rewrite (nth_error_nth' a F64.zero Hi). reflexivity.
Qed.

Lemma getitem_short (a : ndarray) (i : nat) :
  length a <= i -> Np.getitem a i = Raise IndexError.
Proof.
  intros Hi. unfold Np.getitem.
  apply nth_error_None in Hi. rewrite Hi. reflexivity.
Qed.

Lemma full_length (n : nat) (v : float) : length (Np.full n v) = n.
Proof. apply repeat_length. Qed.

Section HamiltonianSolve.

Context `{Libm} `{Lapack}.

Import Hamiltonian.

(** The difference [grid[1] - grid[0]] exists exactly on grids of at
    least two points. *)
Lemma deltaX_long (self : t) :
  2 <= length (x self) ->
  deltaX self = Ok (F64.sub (nth 1 (x self) F64.zero) (nth 0 (x self) F64.zero)).
Proof.
  intros Hn. unfold deltaX.
  rewrite !getitem_length by lia. reflexivity.
Qed.

Lemma deltaX_short (self : t) :
  length (x self) < 2 -> deltaX self = Raise IndexError.
Proof.
  intros Hn. unfold deltaX.
  rewrite (getitem_short (x self) (i := 1)) by lia. reflexivity.
Qed.

Lemma deltaX_same_grid (self self' : t) :
  x self' = x self -> deltaX self' = deltaX self.
Proof. unfold deltaX. intros ->. reflexivity. Qed.

Lemma deltaX_ok_length (self : t) (d : float) :
  deltaX self = Ok d -> 2 <= length (x self).
Proof.
  intros Hd. destruct (Nat.lt_ge_cases (length (x self)) 2) as [Hs|Hl]; auto.
  rewrite (deltaX_short self Hs) in Hd. discriminate.
Qed.

(** [solve], one statement after the other: where it stops and with which
    attributes assigned. *)
Lemma solve_unfold (self : t) :
  solve self =
    match deltaX self with
    | Raise err => (Raise err, self)
    | Ok d =>
        let alpha := alpha_of d in
        let off := Np.full (length (x self) - 1) (F64.neg alpha) in
        match scalar_add (F64.mul F64.two alpha) (V self) with
        | Raise err => (Raise err, set_upperDiag off self)
        | Ok m =>
            (call_eigh m off,
             mk (potential self) (V self) (EMax self) (x self)
                (Set_to off) (Set_to m) (Set_to off))
        end
    end.
Proof.
  unfold solve, mbind, call, read, assign, eval, getattr.
  destruct (deltaX self) as [d|err]; [|reflexivity].
  cbn. destruct (scalar_add _ (V self)) as [m|err]; reflexivity.
Qed.

End HamiltonianSolve.

Section RadialSolve.

Context `{Libm} `{Lapack}.

Import RadialHamiltonian.

Lemma deltaR_long (self : t) :
  2 <= length (r self) ->
  deltaR self = Ok (F64.sub (nth 1 (r self) F64.zero) (nth 0 (r self) F64.zero)).
Proof.
  intros Hn. unfold deltaR.
  rewrite !getitem_length by lia. reflexivity.
Qed.

Lemma deltaR_short (self : t) :
  length (r self) < 2 -> deltaR self = Raise IndexError.
Proof.
  intros Hn. unfold deltaR.
  rewrite (getitem_short (r self) (i := 1)) by lia. reflexivity.
Qed.

Lemma deltaR_same_grid (self self' : t) :
  r self' = r self -> deltaR self' = deltaR self.
Proof. unfold deltaR. intros ->. reflexivity. Qed.

Lemma deltaR_ok_length (self : t) (d : float) :
  deltaR self = Ok d -> 2 <= length (r self).
Proof.
  intros Hd. destruct (Nat.lt_ge_cases (length (r self)) 2) as [Hs|Hl]; auto.
  rewrite (deltaR_short self Hs) in Hd. discriminate.
Qed.

Lemma radial_solve_unfold (self : t) :
  solve self =
    match deltaR self with
    | Raise err => (Raise err, self)
    | Ok d =>
        let alpha := alpha_of d in
        let off := Np.full (length (r self) - 1) (F64.neg alpha) in
        match scalar_add (F64.mul F64.two alpha) (V self) with
        | Raise err => (Raise err, set_upperDiag off self)
        | Ok m =>
            (call_eigh m off,
             mk (potential self) (l self) (r self) (V self)
                (Set_to off) (Set_to m) (Set_to off))
        end
    end.
Proof.
  unfold solve, mbind, call, read, assign, eval, getattr.
  destruct (deltaR self) as [d|err]; [|reflexivity].
  cbn. destruct (scalar_add _ (V self)) as [m|err]; reflexivity.
Qed.

End RadialSolve.

(* ===================================================================== *)
(** * The tridiagonal operator built by [Hamiltonian.solve] *)
(* ===================================================================== *)

(** C3.  On a grid of [N >= 2] points and a potential-value array [V] of the
    same length, [Hamiltonian.solve] computes [delta = grid[1] - grid[0]] and
    [alpha = 1 / (2 * delta**2)], and leaves in the instance the main diagonal
    [2*alpha + V], taken elementwise, and upper and lower off-diagonals made
    of [N - 1] copies of [-alpha]. *)
Theorem solve_builds_tridiagonal `{Libm} `{Lapack}
    (self : Hamiltonian.t) (v : ndarray) :
  2 <= length (Hamiltonian.x self) ->
  Hamiltonian.V self = NdArray v ->
  length v = length (Hamiltonian.x self) ->
  let grid := Hamiltonian.x self in
  let delta := F64.sub (nth 1 grid F64.zero) (nth 0 grid F64.zero) in
  let alpha := F64.div F64.one (F64.mul F64.two (c_pow delta F64.two)) in
  let self' := snd (Hamiltonian.solve self) in
  Hamiltonian.deltaX self = Ok delta /\
  Hamiltonian.mainDiag self'
    = Set_to (NdArray (map (fun vi => F64.add (F64.mul F64.two alpha) vi) v)) /\
  Hamiltonian.upperDiag self' = Set_to (repeat (F64.neg alpha) (length grid - 1)) /\
  Hamiltonian.lowerDiag self' = Set_to (repeat (F64.neg alpha) (length grid - 1)).
Proof.
  intros Hn HV _ grid delta alpha self'.
  assert (Hd : Hamiltonian.deltaX self = Ok delta) by (apply deltaX_long; exact Hn).
  split; [exact Hd|].
  subst self'. rewrite solve_unfold, Hd, HV. cbn.
  repeat split; reflexivity.
Qed.

(* ===================================================================== *)
(** * Grids of fewer than two points *)
(* ===================================================================== *)

(** The constructor keeps the grid it is given. *)
Lemma init_grid `{Libm} (p : potential_object) (grid : ndarray)
    (self : Hamiltonian.t) :
  Hamiltonian.__init__ p grid = Ok self -> Hamiltonian.x self = grid.
Proof.
  unfold Hamiltonian.__init__.
  destruct (GetPotential p grid); cbn; [|discriminate].
  destruct (GroundStateEnergy p); cbn; [|discriminate].
  intros Hinit. injection Hinit as <-. reflexivity.
Qed.

(** C4, as the code has it.  A grid of fewer than two points is not looked
    at by the constructor, which succeeds exactly when the two methods of
    the potential return; [solve] then stops in the computation of
    [delta = grid[1] - grid[0]] itself, with the index error of [grid[1]],
    and has assigned no diagonal. *)
Theorem short_grid_fails_in_delta `{Libm} `{Lapack}
    (p : potential_object) (grid : ndarray) :
  length grid < 2 ->
  is_ok (Hamiltonian.__init__ p grid)
    = is_ok (GetPotential p grid) && is_ok (GroundStateEnergy p) /\
  forall self,
    Hamiltonian.__init__ p grid = Ok self ->
    Hamiltonian.deltaX self = Raise IndexError /\
    Hamiltonian.solve self = (Raise IndexError, self).
Proof.
  intros Hn. split.
  - unfold Hamiltonian.__init__.
    destruct (GetPotential p grid); cbn; [|reflexivity].
    destruct (GroundStateEnergy p); reflexivity.
  - intros self Hinit.
    pose proof (init_grid _ _ Hinit) as Hx.
    assert (Hd : Hamiltonian.deltaX self = Raise IndexError).
    { apply deltaX_short. rewrite Hx. exact Hn. }
    split; [exact Hd|].
    rewrite solve_unfold, Hd. reflexivity.
Qed.

(* ===================================================================== *)
(** * Calling [solve] again, and what [solve] leaves alone *)
(* ===================================================================== *)

(** C8.  A second [solve] on the instance as the first one left it ends as
    the first did, with the same eigenvalues and eigenvectors (or the same
    exception), and leaves the same instance. *)
Theorem solve_twice_same `{Libm} `{Lapack} :
  (forall self : Hamiltonian.t,
      Hamiltonian.solve (snd (Hamiltonian.solve self)) = Hamiltonian.solve self) /\
  (forall self : RadialHamiltonian.t,
      RadialHamiltonian.solve (snd (RadialHamiltonian.solve self))
      = RadialHamiltonian.solve self).
Proof.
  split; intros self.
  - rewrite (solve_unfold self).
    destruct (Hamiltonian.deltaX self) as [d|err] eqn:Hd.
    + cbn zeta.
      destruct (scalar_add _ (Hamiltonian.V self)) as [m|err] eqn:Hm;
        cbn [snd]; rewrite solve_unfold.
      * rewrite (deltaX_same_grid self (Hamiltonian.mk _ _ _ _ _ _ _))
          by reflexivity.
        rewrite Hd. cbn zeta. cbn [Hamiltonian.V Hamiltonian.x].
        rewrite Hm. reflexivity.
      * rewrite (deltaX_same_grid self (Hamiltonian.set_upperDiag _ _))
          by reflexivity.
        rewrite Hd. cbn zeta.
        cbn [Hamiltonian.V Hamiltonian.x Hamiltonian.set_upperDiag].
        rewrite Hm. reflexivity.
    + cbn [snd]. rewrite solve_unfold, Hd. reflexivity.
  - rewrite (radial_solve_unfold self).
    destruct (RadialHamiltonian.deltaR self) as [d|err] eqn:Hd.
    + cbn zeta.
      destruct (scalar_add _ (RadialHamiltonian.V self)) as [m|err] eqn:Hm;
        cbn [snd]; rewrite radial_solve_unfold.
      * rewrite (deltaR_same_grid self
                   (RadialHamiltonian.mk _ _ _ _ _ _ _)) by reflexivity.
        rewrite Hd. cbn zeta. cbn [RadialHamiltonian.V RadialHamiltonian.r].
        rewrite Hm. reflexivity.
      * rewrite (deltaR_same_grid self
                   (RadialHamiltonian.set_upperDiag _ _)) by reflexivity.
        rewrite Hd. cbn zeta.
        cbn [RadialHamiltonian.V RadialHamiltonian.r
             RadialHamiltonian.set_upperDiag].
        rewrite Hm. reflexivity.
    + cbn [snd]. rewrite radial_solve_unfold, Hd. reflexivity.
Qed.

(** C10.  [solve] assigns the three diagonals and nothing else: the grid,
    the potential values, the potential (and [EMax], and [l]) of the instance
    are after the call what they were before it, whether it returns or
    raises. *)
Theorem solve_frame `{Libm} `{Lapack} :
  (forall self : Hamiltonian.t,
      exists u m d,
        snd (Hamiltonian.solve self)
        = Hamiltonian.mk (Hamiltonian.potential self) (Hamiltonian.V self)
            (Hamiltonian.EMax self) (Hamiltonian.x self) u m d) /\
  (forall self : RadialHamiltonian.t,
      exists u m d,
        snd (RadialHamiltonian.solve self)
        = RadialHamiltonian.mk (RadialHamiltonian.potential self)
            (RadialHamiltonian.l self) (RadialHamiltonian.r self)
            (RadialHamiltonian.V self) u m d).
Proof.
  split; intros self.
  - rewrite solve_unfold.
    destruct (Hamiltonian.deltaX self) as [d|err].
    + cbn zeta. destruct (scalar_add _ (Hamiltonian.V self)); cbn;
        do 3 eexists; reflexivity.
    + destruct self; cbn. do 3 eexists; reflexivity.
  - rewrite radial_solve_unfold.
    destruct (RadialHamiltonian.deltaR self) as [d|err].
    + cbn zeta. destruct (scalar_add _ (RadialHamiltonian.V self)); cbn;
        do 3 eexists; reflexivity.
    + destruct self; cbn. do 3 eexists; reflexivity.
Qed.

(* ===================================================================== *)
(** * The potentials *)
(* ===================================================================== *)

Lemma float_pow2_raises `{Libm} (v : float) (err : exception) :
  float_pow2 v = Raise err -> err = OverflowError.
Proof.
  unfold float_pow2.
  repeat match goal with
         | |- context [if ?b then _ else _] => destruct b
         end; intros Hr; inversion Hr; reflexivity.
Qed.

Lemma float_div_raises (a b : float) (err : exception) :
  float_div a b = Raise err -> err = ZeroDivisionError.
Proof.
  unfold float_div. destruct (F64.eqb b F64.zero); intros Hr; inversion Hr.
  reflexivity.
Qed.

(** [GetPotential] returns [None] or an array with one value per grid
    point. *)
Lemma GetPotential_shape `{Libm} (p : potential_object) (grid : ndarray) (o : pyobj) :
  GetPotential p grid = Ok o ->
  o = PyNone \/ exists v, o = NdArray v /\ length v = length grid.
Proof.
  destruct p; cbn;
    try (destruct (float_pow2 omega); cbn);
    intros Hr; inversion Hr; subst; auto; right; eexists; split;
    try reflexivity;
    unfold Np.where_, Np.zeros_like, Np.square;
    rewrite ?length_map; reflexivity.
Qed.

(** The only exception it raises is the overflow of [omega**2]. *)
Lemma GetPotential_raises `{Libm} (p : potential_object) (grid : ndarray)
    (err : exception) :
  GetPotential p grid = Raise err -> err = OverflowError.
Proof.
  destruct p; cbn; try discriminate.
  destruct (float_pow2 omega) eqn:Hp; cbn; [discriminate|].
  intros Hr. injection Hr as <-. exact (float_pow2_raises _ Hp).
Qed.

(** C5, as the code has it.  The two methods of the base class have a
    docstring for a body: whatever the attributes and the grid, [GetPotential]
    and [GroundStateEnergy] return [None] and raise nothing; so does
    [GroundStateEnergy] on a [DoubleSmoothPotential], which inherits it. *)
Theorem base_potential_returns_None `{Libm}
    (mass width center xmin : option float) (grid : ndarray) :
  GetPotential (Potential mass width center xmin) grid = Ok PyNone /\
  GroundStateEnergy (Potential mass width center xmin) = Ok PyNone /\
  forall m, GroundStateEnergy (DoubleSmoothPotential m) = Ok PyNone.
Proof. repeat split; reflexivity. Qed.

(** C9.  On a grid with a zero at index [i], of either sign,
    [CoulombPotential.GetPotential] raises nothing and returns an array
    that holds an infinity at [i]: [-1/r] is not guarded. *)
Theorem coulomb_infinite_at_zero `{Libm} (grid : ndarray) (i : nat) (s : bool) :
  nth_error grid i = Some (S754_zero s) ->
  exists v,
    GetPotential CoulombPotential grid = Ok (NdArray v) /\
    length v = length grid /\
    nth_error v i = Some (S754_infinity (negb s)) /\
    F64.is_finite (nth i v F64.zero) = false.
Proof.
  intros Hi. eexists. split; [reflexivity|].
  assert (Hv : nth_error (map (F64.div (F64.neg F64.one)) grid) i
               = Some (S754_infinity (negb s))).
  { rewrite nth_error_map, Hi. destruct s; reflexivity. }
  split; [apply length_map|]. split; [exact Hv|].
  rewrite (nth_error_nth _ _ F64.zero Hv). reflexivity.
Qed.

(* ===================================================================== *)
(** * The constructor of [RadialHamiltonian] *)
(* ===================================================================== *)

Lemma number_lt0_not_ge0 (l : number) :
  number_lt0 l = true -> number_ge0 l = false.
Proof.
  destruct l as [z|f]; cbn.
  - intros Hz. apply Z.ltb_lt in Hz. apply Z.leb_gt. exact Hz.
  - destruct f as [s|s| |s m ex]; try destruct s; cbn; congruence.
Qed.

Lemma to_double_raises (n : number) (err : exception) :
  to_double n = Raise err -> err = OverflowError.
Proof.
  destruct n as [z|f]; cbn; [|discriminate].
  destruct (F64.is_inf (F64.of_Z z)); intros Hr; inversion Hr; reflexivity.
Qed.

Lemma number_mul_raises (n m : number) (err : exception) :
  number_mul n m = Raise err -> err = OverflowError.
Proof.
  destruct n as [a|a], m as [b|b]; cbn; try discriminate.
  - destruct (F64.is_inf (F64.of_Z a)); cbn; intros Hr; inversion Hr; reflexivity.
  - destruct (F64.is_inf (F64.of_Z b)); cbn; intros Hr; inversion Hr; reflexivity.
Qed.

Lemma working_grid_raises (grid : ndarray) (err : exception) :
  RadialHamiltonian.working_grid grid = Raise err -> err = IndexError.
Proof.
  destruct grid; cbn; intros Hr; inversion Hr; reflexivity.
Qed.

Lemma working_grid_cons (r0 : float) (rest : ndarray) :
  RadialHamiltonian.working_grid (r0 :: rest)
  = Ok (if Np.isclose r0 F64.zero then rest else r0 :: rest).
Proof. reflexivity. Qed.

Lemma centrifugal_raises (l : number) (grid : ndarray) (err : exception) :
  RadialHamiltonian.centrifugal l grid = Raise err -> err = OverflowError.
Proof.
  unfold RadialHamiltonian.centrifugal.
  destruct (number_mul l (number_succ l)) as [ll|e1] eqn:Hm; cbn.
  - destruct (to_double ll) as [c|e2] eqn:Hc; cbn; [discriminate|].
    intros Hr. injection Hr as <-. exact (to_double_raises _ Hc).
  - intros Hr. injection Hr as <-. exact (number_mul_raises _ _ Hm).
Qed.

Lemma centrifugal_length (l : number) (grid c : ndarray) :
  RadialHamiltonian.centrifugal l grid = Ok c -> length c = length grid.
Proof.
  unfold RadialHamiltonian.centrifugal.
  destruct (number_mul l (number_succ l)) as [ll|e1]; cbn; [|discriminate].
  destruct (to_double ll) as [k|e2]; cbn; [|discriminate].
  intros Hr. injection Hr as <-.
  unfold Np.square. rewrite !length_map. reflexivity.
Qed.

Lemma broadcast_mismatch (op : float -> float -> float) (a b : ndarray) :
  length a <> length b -> 2 <= length a -> 2 <= length b ->
  Np.broadcast op a b = Raise ValueError.
Proof.
  intros Hne Ha Hb. unfold Np.broadcast.
  apply Nat.eqb_neq in Hne. rewrite Hne.
  destruct a as [|u [|u' a]]; cbn in Ha; try lia.
  destruct b as [|v [|v' b]]; cbn in Hb; try lia.
  reflexivity.
Qed.

Lemma add_array_raises (o : pyobj) (a : ndarray) (err : exception) :
  add_array o a = Raise err -> err = TypeError \/ err = ValueError.
Proof.
  destruct o as [|f|b]; cbn; try (intros Hr; inversion Hr; auto; fail).
  unfold Np.broadcast.
  destruct (Nat.eqb (length b) (length a)); cbn; [discriminate|].
  destruct b as [|u [|u' b]]; cbn; try discriminate;
    destruct a as [|v [|v' a]]; cbn; try discriminate;
    intros Hr; inversion Hr; auto.
Qed.

(** C6.  A negative angular-momentum index, an [int] or a [float], makes
    the constructor raise the assertion error, whatever the potential and the
    grid; with an index that is at least zero the constructor never raises
    it. *)
Theorem radial_init_rejects_negative_l `{Libm}
    (p : potential_object) (grid : ndarray) (l : number) :
  (number_lt0 l = true ->
   RadialHamiltonian.__init__ p grid l = Raise AssertionError) /\
  (number_ge0 l = true ->
   RadialHamiltonian.__init__ p grid l <> Raise AssertionError).
Proof.
  unfold RadialHamiltonian.__init__. split.
  - intros Hneg. rewrite (number_lt0_not_ge0 _ Hneg). reflexivity.
  - intros Hpos Hraise. rewrite Hpos in Hraise. cbn [negb] in Hraise.
    destruct (RadialHamiltonian.working_grid grid) as [self_r|e1] eqn:Hw;
      cbn in Hraise.
    2:{ injection Hraise as ->. apply working_grid_raises in Hw. discriminate. }
    destruct (GetPotential p grid) as [pot|e2] eqn:Hp; cbn in Hraise.
    2:{ injection Hraise as ->. apply GetPotential_raises in Hp. discriminate. }
    destruct (RadialHamiltonian.centrifugal l self_r) as [cen|e3] eqn:Hc;
      cbn in Hraise.
    2:{ injection Hraise as ->. apply centrifugal_raises in Hc. discriminate. }
    destruct (add_array pot cen) as [V|e4] eqn:Ha; cbn in Hraise;
      [discriminate|].
    injection Hraise as ->. apply add_array_raises in Ha.
    destruct Ha; discriminate.
Qed.

(** The grid that a constructed instance keeps: the tail of the given grid
    when its first point is close to zero, the given grid otherwise. *)
Lemma radial_init_grid `{Libm}
    (p : potential_object) (r0 : float) (rest : ndarray) (l : number)
    (self : RadialHamiltonian.t) :
  RadialHamiltonian.__init__ p (r0 :: rest) l = Ok self ->
  RadialHamiltonian.r self
  = if Np.isclose r0 F64.zero then rest else r0 :: rest.
Proof.
  unfold RadialHamiltonian.__init__.
  destruct (negb (number_ge0 l)); [discriminate|].
  rewrite working_grid_cons. cbn [bind].
  destruct (GetPotential p (r0 :: rest)); cbn [bind]; [|discriminate].
  destruct (RadialHamiltonian.centrifugal l _); cbn [bind]; [|discriminate].
  destruct (add_array _ _); cbn [bind]; [|discriminate].
  intros Hr. injection Hr as <-. reflexivity.
Qed.

(** A zero of either sign is close to zero. *)
Lemma isclose_zero (s : bool) : Np.isclose (S754_zero s) F64.zero = true.
Proof. destruct s; vm_compute; reflexivity. Qed.

(** On a grid that is not trimmed the constructor stores the effective
    potential of the specification. *)
Lemma radial_init_untrimmed `{Libm}
    (p : potential_object) (r0 : float) (rest : ndarray) (l : number)
    (self : RadialHamiltonian.t) :
  Np.isclose r0 F64.zero = false ->
  RadialHamiltonian.__init__ p (r0 :: rest) l = Ok self ->
  RadialHamiltonian.effective_potential_spec p (r0 :: rest) l
  = Ok (RadialHamiltonian.V self).
Proof.
  unfold RadialHamiltonian.__init__, RadialHamiltonian.effective_potential_spec.
  intros Hfar.
  destruct (negb (number_ge0 l)); [discriminate|].
  rewrite working_grid_cons, Hfar. cbn [bind].
  destruct (GetPotential p (r0 :: rest)); cbn [bind]; [|discriminate].
  destruct (RadialHamiltonian.centrifugal l _); cbn [bind]; [|discriminate].
  destruct (add_array _ _); cbn [bind]; [|discriminate].
  intros Hr. injection Hr as <-. reflexivity.
Qed.

(** On a grid of three points or more whose first point is close to zero
    the constructor raises, whatever the potential: the potential is
    evaluated on the given grid, the centrifugal term on the trimmed one, and
    the two arrays cannot be added. *)
Lemma radial_init_trimmed_fails `{Libm}
    (p : potential_object) (r0 : float) (rest : ndarray) (l : number) :
  Np.isclose r0 F64.zero = true ->
  2 <= length rest ->
  is_ok (RadialHamiltonian.__init__ p (r0 :: rest) l) = false.
Proof.
  intros Hclose Hlen. unfold RadialHamiltonian.__init__.
  destruct (negb (number_ge0 l)); [reflexivity|].
  rewrite working_grid_cons, Hclose. cbn [bind].
  destruct (GetPotential p (r0 :: rest)) as [pot|e1] eqn:Hp; cbn [bind];
    [|reflexivity].
  destruct (RadialHamiltonian.centrifugal l rest) as [cen|e2] eqn:Hc;
    cbn [bind]; [|reflexivity].
  apply centrifugal_length in Hc.
  destruct (GetPotential_shape _ _ Hp) as [->|(v & -> & Hv)]; [reflexivity|].
  cbn [add_array]. cbn [length] in Hv.
  rewrite broadcast_mismatch by lia. reflexivity.
Qed.

(** No instance built on a trimmed grid can be solved: the constructor
    raises on three points or more, and on fewer the working grid has no
    second point. *)
Lemma radial_trimmed_never_solves `{Libm} `{Lapack}
    (p : potential_object) (r0 : float) (rest : ndarray) (l : number)
    (self : RadialHamiltonian.t) :
  Np.isclose r0 F64.zero = true ->
  RadialHamiltonian.__init__ p (r0 :: rest) l = Ok self ->
  RadialHamiltonian.solve self = (Raise IndexError, self).
Proof.
  intros Hclose Hinit.
  assert (Hshort : length rest < 2).
  { destruct (Nat.lt_ge_cases (length rest) 2) as [Hs|Hl]; [exact Hs|].
    pose proof (radial_init_trimmed_fails p r0 rest l Hclose Hl) as Hf.
    rewrite Hinit in Hf. discriminate. }
  pose proof (radial_init_grid _ _ _ _ Hinit) as Hr. rewrite Hclose in Hr.
  rewrite radial_solve_unfold, deltaR_short by (rewrite Hr; exact Hshort).
  reflexivity.
Qed.

(** C1, at inputs where the code departs from it.  With the Coulomb
    potential and [l = 1]: on the grid [0, 1] the working grid is [1] and the
    specification's effective potential is [-1/1 + 2/(2*1)], the array [0],
    but the constructor evaluates the potential on the given grid and stores
    the two values [-inf, 0]; on the grid [0, 1, 2] the specification's
    effective potential is the array [0, -0.25] and the constructor raises
    instead. *)
Theorem radial_init_potential_on_given_grid `{Libm} :
  let short := grid_of [0; 1]%Z in
  let long := grid_of [0; 1; 2]%Z in
  (exists self,
      RadialHamiltonian.__init__ CoulombPotential short (Int 1) = Ok self /\
      RadialHamiltonian.r self = grid_of [1]%Z /\
      RadialHamiltonian.V self = NdArray [S754_infinity true; F64.zero]) /\
  RadialHamiltonian.effective_potential_spec CoulombPotential short (Int 1)
    = Ok (NdArray [F64.zero]) /\
  RadialHamiltonian.__init__ CoulombPotential long (Int 1) = Raise ValueError /\
  RadialHamiltonian.effective_potential_spec CoulombPotential long (Int 1)
    = Ok (NdArray [F64.zero; F64.neg (F64.decimal 25 (-2))]).
Proof.
  cbv zeta. split; [|repeat split; vm_compute; reflexivity].
  eexists. split; [vm_compute; reflexivity|].
  split; vm_compute; reflexivity.
Qed.

(** C2, at an input where the code departs from it.  The grid [0, 1, 2]
    starts at exactly [0.0]; its working grid is the tail [1, 2], but the
    construction does not succeed: with the free particle and [l = 0] it
    raises numpy's broadcasting error. *)
Theorem radial_init_raises_on_trimmed_grid `{Libm} :
  let grid := grid_of [0; 1; 2]%Z in
  nth_error grid 0 = Some F64.zero /\
  RadialHamiltonian.working_grid grid = Ok (grid_of [1; 2]%Z) /\
  RadialHamiltonian.__init__ free_particle grid (Int 0) = Raise ValueError.
Proof. cbv zeta. repeat split; vm_compute; reflexivity. Qed.

(* ===================================================================== *)
(** * The spectrum returned by [solve] *)
(* ===================================================================== *)

Lemma call_eigh_shape `{L : Lapack} (LS : LapackSpec L)
    (m : pyobj) (off w : ndarray) (v : list ndarray) :
  call_eigh m off = Ok (w, v) ->
  length w = S (length off) /\ Sorted f64_le w.
Proof.
  destruct m as [|f|d]; cbn; try discriminate.
  intros Hcall. split.
  - destruct (eigh_shape _ _ Hcall) as [Hd Hw]. congruence.
  - exact (eigh_ascending _ _ Hcall).
Qed.

(** C7.  Whenever [solve] returns, for a [Hamiltonian] as for a
    [RadialHamiltonian], it returns as many eigenvalues as the grid of the
    instance has points, in non-decreasing order; the eigensolver is any
    routine that keeps scipy's documented contract.  The grid of the instance
    is the grid given to the constructor: always for a [Hamiltonian], and for
    a [RadialHamiltonian] whenever [solve] returns. *)
Theorem solve_spectrum_size_and_order `{Libm} `{L : Lapack} (LS : LapackSpec L) :
  (forall (self self' : Hamiltonian.t) w v,
      Hamiltonian.solve self = (Ok (w, v), self') ->
      length w = length (Hamiltonian.x self) /\ Sorted f64_le w) /\
  (forall (self self' : RadialHamiltonian.t) w v,
      RadialHamiltonian.solve self = (Ok (w, v), self') ->
      length w = length (RadialHamiltonian.r self) /\ Sorted f64_le w) /\
  (forall p grid (self self' : Hamiltonian.t) w v,
      Hamiltonian.__init__ p grid = Ok self ->
      Hamiltonian.solve self = (Ok (w, v), self') ->
      length w = length grid) /\
  (forall p grid l (self self' : RadialHamiltonian.t) w v,
      RadialHamiltonian.__init__ p grid l = Ok self ->
      RadialHamiltonian.solve self = (Ok (w, v), self') ->
      length w = length grid).
Proof.
  assert (Hcart : forall (self self' : Hamiltonian.t) w v,
             Hamiltonian.solve self = (Ok (w, v), self') ->
             length w = length (Hamiltonian.x self) /\ Sorted f64_le w).
  { intros self self' w v Hsolve.
    rewrite solve_unfold in Hsolve.
    destruct (Hamiltonian.deltaX self) as [d|err] eqn:Hd; [|discriminate].
    apply deltaX_ok_length in Hd.
    cbn zeta in Hsolve.
    destruct (scalar_add _ (Hamiltonian.V self)) as [m|err]; [|discriminate].
    injection Hsolve as Hcall _.
    destruct (call_eigh_shape LS _ _ Hcall) as [Hlen Hsorted].
    rewrite full_length in Hlen. split; [lia|exact Hsorted]. }
  assert (Hrad : forall (self self' : RadialHamiltonian.t) w v,
             RadialHamiltonian.solve self = (Ok (w, v), self') ->
             length w = length (RadialHamiltonian.r self) /\ Sorted f64_le w).
  { intros self self' w v Hsolve.
    rewrite radial_solve_unfold in Hsolve.
    destruct (RadialHamiltonian.deltaR self) as [d|err] eqn:Hd; [|discriminate].
    apply deltaR_ok_length in Hd.
    cbn zeta in Hsolve.
    destruct (scalar_add _ (RadialHamiltonian.V self)) as [m|err]; [|discriminate].
    injection Hsolve as Hcall _.
    destruct (call_eigh_shape LS _ _ Hcall) as [Hlen Hsorted].
    rewrite full_length in Hlen. split; [lia|exact Hsorted]. }
  repeat split; try (eapply Hcart; eassumption); try (eapply Hrad; eassumption).
  - intros p grid self self' w v Hinit Hsolve.
    destruct (Hcart _ _ _ _ Hsolve) as [Hlen _].
    rewrite Hlen, (init_grid _ _ Hinit). reflexivity.
  - intros p grid l self self' w v Hinit Hsolve.
    destruct (Hrad _ _ _ _ Hsolve) as [Hlen _].
    destruct grid as [|r0 rest].
    + unfold RadialHamiltonian.__init__ in Hinit.
      destruct (negb (number_ge0 l)); discriminate.
    + destruct (Np.isclose r0 F64.zero) eqn:Hclose.
      * rewrite (radial_trimmed_never_solves _ _ _ _ Hclose Hinit) in Hsolve.
        discriminate.
      * pose proof (radial_init_grid _ _ _ _ Hinit) as Hr.
        rewrite Hclose in Hr. rewrite Hlen, Hr. reflexivity.
Qed.

(* ===================================================================== *)
(** * The reference eigensolver keeps the contract *)
(* ===================================================================== *)

Lemma eigh_order2_cases (d off w : ndarray) (v : list ndarray) :
  eigh_order2 d off = Ok (w, v) ->
  (exists a, d = [a] /\ off = [] /\ w = [a]) \/
  (exists a c b w1 w2,
      d = [a; c] /\ off = [b] /\ w = [w1; w2] /\ F64.leb w1 w2 = true).
Proof.
  unfold eigh_order2.
  destruct (negb _); [discriminate|].
  destruct d as [|a [|c [|c' d]]]; try discriminate;
    destruct off as [|b [|b' off]]; try discriminate.
  - intros Hr. injection Hr as <- _. left. eauto.
  - destruct (unit_vector b _) as [p1 q1].
    destruct (unit_vector b _) as [p2 q2].
    destruct (F64.leb _ _) eqn:Hle; [|discriminate].
    intros Hr. injection Hr as <- _. right.
    do 5 eexists. repeat split; exact Hle.
Qed.

Lemma lapack_order2_spec : LapackSpec lapack_order2.
Proof.
  constructor; intros d off w v Hr; cbn in Hr;
    destruct (eigh_order2_cases _ _ Hr)
      as [(a & -> & -> & ->)|(a & c & b & w1 & w2 & -> & -> & -> & Hle)].
  - split; reflexivity.
  - split; reflexivity.
  - repeat constructor.
  - repeat constructor. exact Hle.
Qed.

(* ===================================================================== *)
(** * The statements above on concrete runs *)
(* ===================================================================== *)

Lemma solve_builds_tridiagonal_witness :
  let self' := snd (@Hamiltonian.solve libm_ref lapack_order2 free_on_unit_interval) in
  Hamiltonian.deltaX free_on_unit_interval = Ok F64.one /\
  Hamiltonian.mainDiag self' = Set_to (NdArray (grid_of [1; 1]%Z)) /\
  Hamiltonian.upperDiag self' = Set_to [F64.neg F64.half] /\
  Hamiltonian.lowerDiag self' = Set_to [F64.neg F64.half].
Proof.
  exact (@solve_builds_tridiagonal libm_ref lapack_order2
           free_on_unit_interval (grid_of [0; 0]%Z)
           (le_n 2) eq_refl eq_refl).
Defined.

Lemma short_grid_fails_in_delta_witness :
  exists self,
    @Hamiltonian.__init__ libm_ref free_particle (grid_of [1]%Z) = Ok self /\
    Hamiltonian.deltaX self = Raise IndexError /\
    @Hamiltonian.solve libm_ref lapack_order2 self = (Raise IndexError, self).
Proof.
  eexists. split; [vm_compute; reflexivity|].
  apply (@short_grid_fails_in_delta libm_ref lapack_order2
           free_particle (grid_of [1]%Z)).
  - cbn. lia.
  - vm_compute. reflexivity.
Defined.

Lemma radial_init_rejects_negative_l_witness :
  @RadialHamiltonian.__init__ libm_ref CoulombPotential (grid_of [1; 2]%Z) (Int (-1))
    = Raise AssertionError /\
  @RadialHamiltonian.__init__ libm_ref CoulombPotential (grid_of [1; 2]%Z) (Int 2)
    <> Raise AssertionError.
Proof.
  split.
  - apply (@radial_init_rejects_negative_l libm_ref). reflexivity.
  - apply (@radial_init_rejects_negative_l libm_ref). reflexivity.
Defined.

Lemma solve_spectrum_size_and_order_witness :
  (exists w v self',
      @Hamiltonian.solve libm_ref lapack_order2 free_on_unit_interval
        = (Ok (w, v), self') /\
      length w = length (Hamiltonian.x free_on_unit_interval) /\
      Sorted f64_le w) /\
  (exists w v self',
      @RadialHamiltonian.solve libm_ref lapack_order2 free_on_radial_interval
        = (Ok (w, v), self') /\
      length w = length (RadialHamiltonian.r free_on_radial_interval) /\
      Sorted f64_le w).
Proof.
  destruct (@solve_spectrum_size_and_order libm_ref lapack_order2
              lapack_order2_spec) as (Hcart & Hrad & _).
  split; do 3 eexists.
  - split; [symmetry; vm_compute; reflexivity|].
    eapply Hcart. vm_compute. reflexivity.
  - split; [symmetry; vm_compute; reflexivity|].
    eapply Hrad. vm_compute. reflexivity.
Defined.

Lemma coulomb_infinite_at_zero_witness :
  exists v,
    @GetPotential libm_ref CoulombPotential (grid_of [0; 1]%Z) = Ok (NdArray v) /\
    length v = 2 /\
    nth_error v 0 = Some (S754_infinity true) /\
    F64.is_finite (nth 0 v F64.zero) = false.
Proof.
  exact (@coulomb_infinite_at_zero libm_ref (grid_of [0; 1]%Z) 0 false eq_refl).
Defined.

(** C4 on the grid of the single point [1.0]: the constructor accepts it,
    nothing rejects it before [solve] computes [grid[1] - grid[0]], and the
    exception of the run is the index error of that very computation. *)
Lemma short_grid_reaches_delta :
  let grid := grid_of [1]%Z in
  length grid < 2 /\
  exists self,
    @Hamiltonian.__init__ libm_ref free_particle grid = Ok self /\
    Hamiltonian.upperDiag self = Unset /\
    Hamiltonian.deltaX self = Raise IndexError /\
    @Hamiltonian.solve libm_ref lapack_order2 self = (Raise IndexError, self).
Proof.
  cbv zeta. split; [cbn; lia|].
  eexists. split; [vm_compute; reflexivity|].
  repeat split; vm_compute; reflexivity.
Qed.

(** C5 on the grid [0, 1, 2]: through the base class both methods return
    [None]; neither raises. *)
Lemma base_potential_does_not_raise :
  @GetPotential libm_ref base_potential (grid_of [0; 1; 2]%Z) = Ok PyNone /\
  @GroundStateEnergy libm_ref base_potential = Ok PyNone /\
  ~ (exists err,
        @GetPotential libm_ref base_potential (grid_of [0; 1; 2]%Z) = Raise err) /\
  ~ (exists err, @GroundStateEnergy libm_ref base_potential = Raise err).
Proof.
  repeat split; try (vm_compute; reflexivity);
    intros [err Herr]; vm_compute in Herr; discriminate.
Qed.
